(** * The Venafi certificate-request signer

    A shallow embedding of [Venafi.Sign] from
    [pkg/controller/certificaterequests/venafi/venafi.go], and the
    properties of its result contract, of the audit events it records and
    of the calls it makes to its collaborators.

    [Sign] is effectful Go code: it reads the certificate request through a
    pointer, calls the injected client builder and the CA client, reports to
    the event recorder and writes to the logger.  The embedding threads a
    [World] through ExtLib's state monad; every effect of the source is one
    monadic action, in the order of the source.  A second embedding,
    [Shared.Sign], keeps the request as an object that the reporter and the
    CA client can write to, and agrees with the first on everything else. *)

From Stdlib Require Import String List ZArith Bool.
From Stdlib Require Import Strings.Byte.
From ExtLib Require Import Structures.Monad Structures.MonadState.
From ExtLib Require Import Data.Monads.StateMonad.
Import ListNotations.
Import MonadNotation.
Local Open Scope monad_scope.
Local Open Scope string_scope.
Local Open Scope list_scope.

Set Implicit Arguments.

(** ** Data model *)

(** [time.Duration]: a signed 64-bit count of nanoseconds. *)
Definition Duration := Z.

(** A Go [[]byte]; the nil slice and the empty slice are both [[]]. *)
Definition bytes := list byte.

(** A pointer to a [cmapi.CertificateRequest] held in the [World]'s heap. *)
Definition ptr := nat.

(** The [metav1.StatusReason] of a Kubernetes API status error. *)
Inductive StatusReason : Type :=
| StatusReasonUnknown
| StatusReasonNotFound
| StatusReasonAlreadyExists
| StatusReasonForbidden
| StatusReasonTimeout.

(** Go [error] values, by dynamic type: the Kubernetes API status error that
    [k8sErrors.IsNotFound] inspects, the two vcert [endpoint] error types that
    the type switch of [Sign] names, and [errorString] for an error of any
    other dynamic type. *)
Inductive error : Type :=
| StatusError (reason : StatusReason) (message : string)
| ErrCertificatePending (CertificateID Status : string)
| ErrRetrieveCertificateTimeout (CertificateID : string)
| errorString (s : string).

(** [k8sErrors.IsNotFound]: the error is an API status whose reason is
    [StatusReasonNotFound]. *)
Definition IsNotFound (err : error) : bool :=
  match err with
  | StatusError StatusReasonNotFound _ => true
  | _ => false
  end.

(** The fields of [cmapi.CertificateRequestSpec] that [Sign] reads;
    [Duration] is a [*metav1.Duration], nil when unset.  What else the
    object holds, status and metadata, is the [obj_rest] of a
    [Shared.Object] below. *)
Record CertificateRequestSpec : Type := {
  spec_Duration : option Duration;
  spec_CSRPEM : bytes
}.

Record CertificateRequest : Type := {
  Namespace : string;
  Name : string;
  Spec : CertificateRequestSpec
}.

(** [cmapi.GenericIssuer]: an interface with two implementations. *)
Inductive GenericIssuer : Type :=
| Issuer (namespace name : string)
| ClusterIssuer (name : string).

(** [issuerpkg.IssueResponse]; [Sign] fills in [Certificate] only. *)
Record IssueResponse : Type := {
  Certificate : bytes
}.

(** A secret of the store behind [corelisters.SecretLister]. *)
Record Secret : Type := {
  secret_namespace : string;
  secret_name : string;
  secret_data : bytes
}.

Definition SecretLister := list Secret.

(** The vcert connector: [Sign(csrPEM, duration) (cert []byte, err error)].
    The Go pair is kept as a pair: a client may hand back bytes together with
    an error, and the caller decides what to look at. *)
Record VenafiClient : Type := {
  client_Sign : bytes -> Duration -> bytes * option error
}.

(** [venafiinternal.VenafiClientBuilder]: a client, or the error that kept it
    from being built ([inl], as in ExtLib's error monad).  A nil client
    together with a nil error has no counterpart here. *)
Definition VenafiClientBuilder : Type :=
  string -> SecretLister -> GenericIssuer -> error + VenafiClient.

(** The [Venafi] struct, with the fields [Sign] uses.  The event recorder it
    also holds is the sink [w_recorder] of the [World]. *)
Record Venafi : Type := {
  secretsLister : SecretLister;
  clientBuilder : VenafiClientBuilder
}.

(** ** Loggers *)

(** A logr logger: its name segments and the resource it was related to. *)
Record Logger : Type := {
  log_names : list string;
  log_related : option GenericIssuer
}.

(** A [context.Context], as far as [logf.FromContext] looks into it. *)
Record Context : Type := {
  ctx_logger : Logger
}.

Inductive LogEntry : Type :=
| LogError (l : Logger) (err : error) (msg : string)
| LogInfo (l : Logger) (msg : string).

(** [logf.FromContext(ctx, name)]: the context's logger, with [name]
    appended. *)
Definition FromContext (ctx : Context) (name : string) : Logger :=
  {| log_names := log_names (ctx_logger ctx) ++ [name];
     log_related := log_related (ctx_logger ctx) |}.

(** [logf.WithRelatedResource(log, obj)]. *)
Definition WithRelatedResource (l : Logger) (obj : GenericIssuer) : Logger :=
  {| log_names := log_names l; log_related := Some obj |}.

(** ** Audit events *)

(** Which method of the reporter recorded the event. *)
Inductive Outcome : Type :=
| Pending
| Failed.

(** An event in the sink: tied to the request it is about, with the outcome,
    the reason code and the message, and the error that caused it. *)
Record Event : Type := {
  ev_regarding : ptr;
  ev_outcome : Outcome;
  ev_reason : string;
  ev_message : string;
  ev_cause : error
}.

(** ** The world [Sign] runs in *)

Record World : Type := {
  w_heap : ptr -> CertificateRequest;
  w_recorder : list Event;
  w_log : list LogEntry;
  w_builds : list (string * GenericIssuer);
  w_signs : list (bytes * Duration)
}.

Definition M := state World.

Definition record_event (e : Event) (w : World) : World :=
  {| w_heap := w_heap w;
     w_recorder := w_recorder w ++ [e];
     w_log := w_log w;
     w_builds := w_builds w;
     w_signs := w_signs w |}.

Definition write_log (l : LogEntry) (w : World) : World :=
  {| w_heap := w_heap w;
     w_recorder := w_recorder w;
     w_log := w_log w ++ [l];
     w_builds := w_builds w;
     w_signs := w_signs w |}.

Definition note_build (ns : string) (iss : GenericIssuer) (w : World) : World :=
  {| w_heap := w_heap w;
     w_recorder := w_recorder w;
     w_log := w_log w;
     w_builds := w_builds w ++ [(ns, iss)];
     w_signs := w_signs w |}.

Definition note_sign (csr : bytes) (d : Duration) (w : World) : World :=
  {| w_heap := w_heap w;
     w_recorder := w_recorder w;
     w_log := w_log w;
     w_builds := w_builds w;
     w_signs := w_signs w ++ [(csr, d)] |}.

(** Reading a field through the request pointer. *)
Definition load {A : Type} (cr : ptr) (field : CertificateRequest -> A) : M A :=
  gets (fun w => field (w_heap w cr)).

(** ** The reporter *)

(** [crutil.Reporter] holds the request pointer it was made for. *)
Record Reporter : Type := {
  rep_cr : ptr
}.

(** Modelled from the spec: [crutil.NewReporter] and the reporter's methods
    [Pending] and [Failed] are in package
    [pkg/controller/certificaterequests/util], which is not among the
    sources.  After sections 3 and 6 of the specification, a reporter call is
    one [Record(request, severity, reasonCode, message)] on the event sink:
    it appends one write-once event tied to the request, and does nothing
    else.  The recorder that the Go constructor also takes is the sink
    [w_recorder]. *)
Definition NewReporter (cr : ptr) : Reporter :=
  {| rep_cr := cr |}.

(** Modelled from the spec: [Reporter.Pending], missing from the sources
    (see [NewReporter]). *)
Definition Reporter_Pending (r : Reporter) (err : error)
    (reason message : string) : M unit :=
  modify (record_event {| ev_regarding := rep_cr r; ev_outcome := Pending;
                          ev_reason := reason; ev_message := message;
                          ev_cause := err |}) ;;
  ret tt.

(** Modelled from the spec: [Reporter.Failed], missing from the sources
    (see [NewReporter]). *)
Definition Reporter_Failed (r : Reporter) (err : error)
    (reason message : string) : M unit :=
  modify (record_event {| ev_regarding := rep_cr r; ev_outcome := Failed;
                          ev_reason := reason; ev_message := message;
                          ev_cause := err |}) ;;
  ret tt.

(** [log.Error(err, msg)] and [log.Info(msg)]. *)
Definition Logger_Error (l : Logger) (err : error) (msg : string) : M unit :=
  modify (write_log (LogError l err msg)) ;; ret tt.

Definition Logger_Info (l : Logger) (msg : string) : M unit :=
  modify (write_log (LogInfo l msg)) ;; ret tt.

(** ** Collaborator calls *)

(** [v.clientBuilder(namespace, v.secretsLister, issuerObj)]. *)
Definition call_clientBuilder (v : Venafi) (ns : string) (iss : GenericIssuer)
  : M (error + VenafiClient) :=
  modify (note_build ns iss) ;;
  ret (clientBuilder v ns (secretsLister v) iss).

(** [client.Sign(csrPEM, duration)].  Here the client is handed the bytes by
    value; [Shared.call_Sign] below keeps the slice that the client shares
    with the request. *)
Definition call_Sign (c : VenafiClient) (csr : bytes) (d : Duration)
  : M (bytes * option error) :=
  modify (note_sign csr d) ;;
  ret (client_Sign c csr d).

Section Signer.

(** [v1alpha1.DefaultCertificateDuration], a constant of the API package. *)
Variable DefaultCertificateDuration : Duration.

(** Modelled from the spec: [apiutil.DefaultCertDuration] is in package
    [pkg/api/util], not among the sources.  Section 3: the requested validity
    duration is optional and "falls back to a system default when unset". *)
Definition DefaultCertDuration (d : option Duration) : Duration :=
  match d with
  | Some requested => requested
  | None => DefaultCertificateDuration
  end.

(** ** [Venafi.Sign] *)

Definition Sign (v : Venafi) (ctx : Context) (cr : ptr)
    (issuerObj : GenericIssuer) : M (option IssueResponse * option error) :=
  let log := FromContext ctx "sign" in
  let reporter := NewReporter cr in
  ns <- load cr Namespace ;;
  built <- call_clientBuilder v ns issuerObj ;;
  match built with
  | inl err =>
      let log := WithRelatedResource log issuerObj in
      if IsNotFound err then
        let message := "Required secret resource not found" in
        Reporter_Pending reporter err "MissingSecret" message ;;
        Logger_Error log err message ;;
        ret (None, None)
      else
        let message := "Failed to initialise venafi client for signing" in
        Reporter_Pending reporter err "ErrorVenafiInit" message ;;
        Logger_Error log err message ;;
        ret (None, Some err)
  | inr client =>
      requested <- load cr (fun r => spec_Duration (Spec r)) ;;
      let duration := DefaultCertDuration requested in
      csr <- load cr (fun r => spec_CSRPEM (Spec r)) ;;
      signed <- call_Sign client csr duration ;;
      let '(certPem, err) := signed in
      match err with
      | Some err =>
          match err with
          | ErrCertificatePending _ _ =>
              let message :=
                "venafi certificate still in a pending state, the request will be retried" in
              Reporter_Pending reporter err "IssuancePending" message ;;
              Logger_Error log err message ;;
              ret (None, Some err)
          | ErrRetrieveCertificateTimeout _ =>
              let message :=
                "timed out waiting for venafi certificate, the request will be retried" in
              Reporter_Failed reporter err "Timeout" message ;;
              Logger_Error log err message ;;
              ret (None, None)
          | _ =>
              let message := "failed to obtain venafi certificate" in
              Reporter_Pending reporter err "Retrieve" message ;;
              Logger_Error log err message ;;
              ret (None, Some err)
          end
      | None =>
          Logger_Info log "certificate issued" ;;
          ret (Some {| Certificate := certPem |}, None)
      end
  end.

End Signer.

(** ** What one invocation sees *)

(** The answer of the client builder in the invocation that starts in [w]. *)
Definition builder_answer (v : Venafi) (cr : ptr) (issuerObj : GenericIssuer)
    (w : World) : error + VenafiClient :=
  clientBuilder v (Namespace (w_heap w cr)) (secretsLister v) issuerObj.

(** The answer of [client.Sign] in the invocation that starts in [w]. *)
Definition ca_answer (dflt : Duration) (client : VenafiClient) (cr : ptr)
    (w : World) : bytes * option error :=
  client_Sign client (spec_CSRPEM (Spec (w_heap w cr)))
    (DefaultCertDuration dflt (spec_Duration (Spec (w_heap w cr)))).

(** The two cases the type switch of [Sign] names. *)
Definition isErrCertificatePending (err : error) : bool :=
  match err with
  | ErrCertificatePending _ _ => true
  | _ => false
  end.

Definition isErrRetrieveCertificateTimeout (err : error) : bool :=
  match err with
  | ErrRetrieveCertificateTimeout _ => true
  | _ => false
  end.

(** The world after the calls to the builder and to the CA client. *)
Definition after_build (cr : ptr) (issuerObj : GenericIssuer) (w : World) : World :=
  note_build (Namespace (w_heap w cr)) issuerObj w.

Definition after_sign (dflt : Duration) (cr : ptr) (issuerObj : GenericIssuer)
    (w : World) : World :=
  note_sign (spec_CSRPEM (Spec (w_heap w cr)))
    (DefaultCertDuration dflt (spec_Duration (Spec (w_heap w cr))))
    (after_build cr issuerObj w).

(** The event a reporter for [cr] records. *)
Definition event_for (cr : ptr) (o : Outcome) (reason message : string)
    (err : error) : Event :=
  {| ev_regarding := cr; ev_outcome := o; ev_reason := reason;
     ev_message := message; ev_cause := err |}.

(** The result pair and the final world of one invocation. *)
Definition Sign_result (dflt : Duration) (v : Venafi) (ctx : Context) (cr : ptr)
    (issuerObj : GenericIssuer) (w : World) : option IssueResponse * option error :=
  evalState (Sign dflt v ctx cr issuerObj) w.

Definition Sign_world (dflt : Duration) (v : Venafi) (ctx : Context) (cr : ptr)
    (issuerObj : GenericIssuer) (w : World) : World :=
  execState (Sign dflt v ctx cr issuerObj) w.

(** The logger [Sign] writes to, before and after it is related to the
    issuer. *)
Definition sign_log (ctx : Context) : Logger := FromContext ctx "sign".

Definition sign_log_related (ctx : Context) (issuerObj : GenericIssuer) : Logger :=
  WithRelatedResource (sign_log ctx) issuerObj.

(** Whether the invocation that starts in [w] ends with a certificate: the
    builder hands back a client and the client signs without an error. *)
Definition issues (dflt : Duration) (v : Venafi) (cr : ptr)
    (issuerObj : GenericIssuer) (w : World) : bool :=
  match builder_answer v cr issuerObj w with
  | inl _ => false
  | inr client =>
      match snd (ca_answer dflt client cr w) with
      | Some _ => false
      | None => true
      end
  end.

(** An error in the result pair is the signal to the caller to retry. *)
Definition asks_retry (r : option IssueResponse * option error) : bool :=
  match snd r with
  | Some _ => true
  | None => false
  end.

(** ** The paths of [Sign]

    One constructor per [return] of the source, with the condition under
    which it is reached, the pair it returns and the world it leaves. *)
Inductive SignRun (dflt : Duration) (v : Venafi) (ctx : Context) (cr : ptr)
    (issuerObj : GenericIssuer) (w : World)
  : (option IssueResponse * option error) * World -> Prop :=
| RunMissingSecret (err : error) :
    builder_answer v cr issuerObj w = inl err ->
    IsNotFound err = true ->
    SignRun dflt v ctx cr issuerObj w
      ((None, None),
       write_log
         (LogError (sign_log_related ctx issuerObj) err
            "Required secret resource not found")
         (record_event
            (event_for cr Pending "MissingSecret"
               "Required secret resource not found" err)
            (after_build cr issuerObj w)))
| RunInitFailed (err : error) :
    builder_answer v cr issuerObj w = inl err ->
    IsNotFound err = false ->
    SignRun dflt v ctx cr issuerObj w
      ((None, Some err),
       write_log
         (LogError (sign_log_related ctx issuerObj) err
            "Failed to initialise venafi client for signing")
         (record_event
            (event_for cr Pending "ErrorVenafiInit"
               "Failed to initialise venafi client for signing" err)
            (after_build cr issuerObj w)))
| RunPending (client : VenafiClient) (certPem : bytes) (err : error) :
    builder_answer v cr issuerObj w = inr client ->
    ca_answer dflt client cr w = (certPem, Some err) ->
    isErrCertificatePending err = true ->
    SignRun dflt v ctx cr issuerObj w
      ((None, Some err),
       write_log
         (LogError (sign_log ctx) err
            "venafi certificate still in a pending state, the request will be retried")
         (record_event
            (event_for cr Pending "IssuancePending"
               "venafi certificate still in a pending state, the request will be retried"
               err)
            (after_sign dflt cr issuerObj w)))
| RunTimeout (client : VenafiClient) (certPem : bytes) (err : error) :
    builder_answer v cr issuerObj w = inr client ->
    ca_answer dflt client cr w = (certPem, Some err) ->
    isErrRetrieveCertificateTimeout err = true ->
    SignRun dflt v ctx cr issuerObj w
      ((None, None),
       write_log
         (LogError (sign_log ctx) err
            "timed out waiting for venafi certificate, the request will be retried")
         (record_event
            (event_for cr Failed "Timeout"
               "timed out waiting for venafi certificate, the request will be retried"
               err)
            (after_sign dflt cr issuerObj w)))
| RunRetrieve (client : VenafiClient) (certPem : bytes) (err : error) :
    builder_answer v cr issuerObj w = inr client ->
    ca_answer dflt client cr w = (certPem, Some err) ->
    isErrCertificatePending err = false ->
    isErrRetrieveCertificateTimeout err = false ->
    SignRun dflt v ctx cr issuerObj w
      ((None, Some err),
       write_log
         (LogError (sign_log ctx) err "failed to obtain venafi certificate")
         (record_event
            (event_for cr Pending "Retrieve"
               "failed to obtain venafi certificate" err)
            (after_sign dflt cr issuerObj w)))
| RunIssued (client : VenafiClient) (certPem : bytes) :
    builder_answer v cr issuerObj w = inr client ->
    ca_answer dflt client cr w = (certPem, None) ->
    SignRun dflt v ctx cr issuerObj w
      ((Some {| Certificate := certPem |}, None),
       write_log (LogInfo (sign_log ctx) "certificate issued")
         (after_sign dflt cr issuerObj w)).

(** ** Concrete collaborators and requests *)

Module Examples.

(** 2160 hours, in nanoseconds. *)
Definition ninety_days : Duration := 7776000000000000%Z.

Definition one_hour : Duration := 3600000000000%Z.

Definition csr_pem : bytes :=
  list_byte_of_string "-----BEGIN CERTIFICATE REQUEST-----".

Definition cert_pem : bytes :=
  list_byte_of_string "-----BEGIN CERTIFICATE-----".

(** A request that leaves the duration unset, and one that asks for an hour. *)
Definition request_default : CertificateRequest :=
  {| Namespace := "default"; Name := "web-tls";
     Spec := {| spec_Duration := None; spec_CSRPEM := csr_pem |} |}.

Definition request_hour : CertificateRequest :=
  {| Namespace := "prod"; Name := "api-tls";
     Spec := {| spec_Duration := Some one_hour; spec_CSRPEM := csr_pem |} |}.

(** Pointer 0 is [request_default]; every other pointer is [request_hour]. *)
Definition heap0 (p : ptr) : CertificateRequest :=
  match p with
  | O => request_default
  | S _ => request_hour
  end.

Definition fresh_world : World :=
  {| w_heap := heap0; w_recorder := []; w_log := [];
     w_builds := []; w_signs := [] |}.

(** A world in which an earlier reconciliation already left an event. *)
Definition used_world : World :=
  record_event
    (event_for 1 Pending "Retrieve" "failed to obtain venafi certificate"
       (errorString "connection refused"))
    fresh_world.

Definition ctx0 : Context :=
  {| ctx_logger := {| log_names := ["cert-manager"]; log_related := None |} |}.

Definition issuer0 : GenericIssuer := Issuer "default" "venafi".

Definition cluster_issuer0 : GenericIssuer := ClusterIssuer "venafi-tpp".

(** CA clients: one that issues, and one for each way to fail. *)
Definition issuing_client : VenafiClient :=
  {| client_Sign := fun _ _ => (cert_pem, None) |}.

Definition pending_client : VenafiClient :=
  {| client_Sign := fun _ _ =>
       ([], Some (ErrCertificatePending "req-17" "Pending approval")) |}.

Definition timeout_client : VenafiClient :=
  {| client_Sign := fun _ _ =>
       ([], Some (ErrRetrieveCertificateTimeout "req-17")) |}.

Definition unreachable_client : VenafiClient :=
  {| client_Sign := fun _ _ => ([], Some (errorString "connection refused")) |}.

(** A builder in the manner of [venafiinternal.New]: it wants the credentials
    secret of the namespace, fails with a not-found status when the lister
    has none, and with a plain error when the secret is empty. *)
Definition find_secret (l : SecretLister) (ns name : string) : option Secret :=
  find (fun s => String.eqb (secret_namespace s) ns
                 && String.eqb (secret_name s) name) l.

Definition builder_for (client : VenafiClient) : VenafiClientBuilder :=
  fun ns lister _ =>
    match find_secret lister ns "venafi-credentials" with
    | None => inl (StatusError StatusReasonNotFound "secret not found")
    | Some s =>
        match secret_data s with
        | [] => inl (errorString "credentials are empty")
        | _ :: _ => inr client
        end
    end.

Definition credentials (ns : string) (data : bytes) : Secret :=
  {| secret_namespace := ns; secret_name := "venafi-credentials";
     secret_data := data |}.

Definition good_secrets : SecretLister :=
  [credentials "default" (list_byte_of_string "token");
   credentials "prod" (list_byte_of_string "token")].

Definition signer_with (client : VenafiClient) : Venafi :=
  {| secretsLister := good_secrets; clientBuilder := builder_for client |}.

Definition signer_without_secret : Venafi :=
  {| secretsLister := []; clientBuilder := builder_for issuing_client |}.

Definition signer_with_empty_secret : Venafi :=
  {| secretsLister := [credentials "default" []];
     clientBuilder := builder_for issuing_client |}.

End Examples.

(** ** What an invocation asks of the CA and hands back *)

(** The calls to the CA client that the invocation starting in [w] makes:
    none when the client cannot be built, else one, with the CSR of the
    request and the duration [Sign] worked out. *)
Definition ca_calls (dflt : Duration) (v : Venafi) (cr : ptr)
    (issuerObj : GenericIssuer) (w : World) : list (bytes * Duration) :=
  match builder_answer v cr issuerObj w with
  | inl _ => []
  | inr _ =>
      [(spec_CSRPEM (Spec (w_heap w cr)),
        DefaultCertDuration dflt (spec_Duration (Spec (w_heap w cr))))]
  end.

(** The error of a collaborator that reaches the caller: a not-found error
    of the builder and a retrieval timeout of the CA client stay inside. *)
Definition surfaced (dflt : Duration) (v : Venafi) (cr : ptr)
    (issuerObj : GenericIssuer) (w : World) : option error :=
  match builder_answer v cr issuerObj w with
  | inl err => if IsNotFound err then None else Some err
  | inr client =>
      match snd (ca_answer dflt client cr w) with
      | Some err =>
          if isErrRetrieveCertificateTimeout err then None else Some err
      | None => None
      end
  end.

(** The outcomes and reason codes that appear in the source of [Sign]. *)
Definition reason_codes : list (Outcome * string) :=
  [(Pending, "MissingSecret"); (Pending, "ErrorVenafiInit");
   (Pending, "IssuancePending"); (Failed, "Timeout"); (Pending, "Retrieve")].

(** The reason codes under which [Sign] returns no error. *)
Definition absorbed_reason (reason : string) : bool :=
  String.eqb reason "MissingSecret" || String.eqb reason "Timeout".

(** The reason codes of the events about the client builder. *)
Definition builder_reason (reason : string) : bool :=
  String.eqb reason "MissingSecret" || String.eqb reason "ErrorVenafiInit".

(** An error of one of the two vcert types the type switch names. *)
Definition isVcertError (err : error) : bool :=
  isErrCertificatePending err || isErrRetrieveCertificateTimeout err.

Module EdgeExamples.

(** A builder that cannot reach the CA and gives up with a vcert timeout. *)
Definition offline_builder : VenafiClientBuilder :=
  fun _ _ _ => inl (ErrRetrieveCertificateTimeout "ping").

Definition signer_offline : Venafi :=
  {| secretsLister := []; clientBuilder := offline_builder |}.

(** A CA client whose answer is an API status "not found". *)
Definition gone_client : VenafiClient :=
  {| client_Sign := fun _ _ =>
       ([], Some (StatusError StatusReasonNotFound "zone not found")) |}.

(** A client that hands back bytes together with an error. *)
Definition half_client : VenafiClient :=
  {| client_Sign := fun csr _ => (csr, Some (errorString "short read")) |}.

Definition ctx1 : Context :=
  {| ctx_logger :=
       {| log_names := ["controller"];
          log_related := Some (ClusterIssuer "other") |} |}.

End EdgeExamples.

(** ** The request as an object that [Sign] shares

    In Go the request is one object behind the pointer [cr].  [Sign] hands
    that pointer to the reporter (venafi.go:83) and the slice
    [cr.Spec.CSRPEM] to the CA client (venafi.go:107), so both can write to
    the request while [Sign] runs.  The model above passes values; this one
    keeps the sharing, to say which writes can reach the request. *)

Module Shared.

(** A CA client: what it answers, and the content it leaves in the CSR slice
    it was handed. *)
Record Client : Type := {
  answers : VenafiClient;
  leaves : bytes -> Duration -> bytes
}.

Definition ClientBuilder : Type :=
  string -> SecretLister -> GenericIssuer -> error + Client.

(** The [Venafi] struct over such clients. *)
Record Signer : Type := {
  lister : SecretLister;
  builder : ClientBuilder
}.

Section Sharing.

(** What a request object holds besides the fields [Sign] reads, its status
    and its metadata; package [cmapi] declares them, and it is not among the
    sources. *)
Variable Rest : Type.

Record Object : Type := {
  obj_request : CertificateRequest;
  obj_rest : Rest
}.

(** What a method of the reporter writes to the request it holds, for the
    outcome, error, reason and message it is called with.  The reporter is
    not among the sources, and the specification tells of the event it
    records only; its writes are left open. *)
Variable reporter_writes :
  Outcome -> error -> string -> string -> Object -> Object.

Record Store : Type := {
  objects : ptr -> Object;
  st_recorder : list Event;
  st_log : list LogEntry;
  st_builds : list (string * GenericIssuer);
  st_signs : list (bytes * Duration)
}.

(** The object with other bytes in its CSR slice. *)
Definition set_CSRPEM (content : bytes) (o : Object) : Object :=
  {| obj_request :=
       {| Namespace := Namespace (obj_request o);
          Name := Name (obj_request o);
          Spec := {| spec_Duration := spec_Duration (Spec (obj_request o));
                     spec_CSRPEM := content |} |};
     obj_rest := obj_rest o |}.

(** A write through the pointer [cr]. *)
Definition write_through (cr : ptr) (f : Object -> Object)
    (heap : ptr -> Object) : ptr -> Object :=
  fun p => if Nat.eqb p cr then f (heap p) else heap p.

Definition load (cr : ptr) {A : Type} (field : CertificateRequest -> A)
  : state Store A :=
  gets (fun s => field (obj_request (objects s cr))).

(** Modelled from the spec: a call of [Reporter.Pending] or
    [Reporter.Failed], both missing from the sources.  It records one event
    about the request, as in sections 3 and 6 of the specification, and
    writes to the request whatever [reporter_writes] says. *)
Definition report (r : Reporter) (o : Outcome) (err : error)
    (reason message : string) : state Store unit :=
  modify (fun s =>
    {| objects :=
         write_through (rep_cr r) (reporter_writes o err reason message)
           (objects s);
       st_recorder :=
         st_recorder s ++
         [{| ev_regarding := rep_cr r; ev_outcome := o; ev_reason := reason;
             ev_message := message; ev_cause := err |}];
       st_log := st_log s;
       st_builds := st_builds s;
       st_signs := st_signs s |}) ;;
  ret tt.

Definition log_line (l : LogEntry) : state Store unit :=
  modify (fun s =>
    {| objects := objects s;
       st_recorder := st_recorder s;
       st_log := st_log s ++ [l];
       st_builds := st_builds s;
       st_signs := st_signs s |}) ;;
  ret tt.

(** [v.clientBuilder(namespace, v.secretsLister, issuerObj)]. *)
Definition call_builder (v : Signer) (ns : string) (iss : GenericIssuer)
  : state Store (error + Client) :=
  modify (fun s =>
    {| objects := objects s;
       st_recorder := st_recorder s;
       st_log := st_log s;
       st_builds := st_builds s ++ [(ns, iss)];
       st_signs := st_signs s |}) ;;
  ret (builder v ns (lister v) iss).

(** [client.Sign(cr.Spec.CSRPEM, duration)]: the client answers, and the
    slice of the request holds what the client left in it. *)
Definition call_Sign (c : Client) (cr : ptr) (d : Duration)
  : state Store (bytes * option error) :=
  csr <- load cr (fun r => spec_CSRPEM (Spec r)) ;;
  modify (fun s =>
    {| objects := write_through cr (set_CSRPEM (leaves c csr d)) (objects s);
       st_recorder := st_recorder s;
       st_log := st_log s;
       st_builds := st_builds s;
       st_signs := st_signs s ++ [(csr, d)] |}) ;;
  ret (client_Sign (answers c) csr d).

Variable dflt : Duration.

(** [Venafi.Sign], statement by statement as [Sign] above. *)
Definition Sign (v : Signer) (ctx : Context) (cr : ptr)
    (issuerObj : GenericIssuer)
  : state Store (option IssueResponse * option error) :=
  let log := FromContext ctx "sign" in
  let reporter := NewReporter cr in
  ns <- load cr Namespace ;;
  built <- call_builder v ns issuerObj ;;
  match built with
  | inl err =>
      let log := WithRelatedResource log issuerObj in
      if IsNotFound err then
        let message := "Required secret resource not found" in
        report reporter Pending err "MissingSecret" message ;;
        log_line (LogError log err message) ;;
        ret (None, None)
      else
        let message := "Failed to initialise venafi client for signing" in
        report reporter Pending err "ErrorVenafiInit" message ;;
        log_line (LogError log err message) ;;
        ret (None, Some err)
  | inr client =>
      requested <- load cr (fun r => spec_Duration (Spec r)) ;;
      let duration := DefaultCertDuration dflt requested in
      signed <- call_Sign client cr duration ;;
      let '(certPem, err) := signed in
      match err with
      | Some err =>
          match err with
          | ErrCertificatePending _ _ =>
              let message :=
                "venafi certificate still in a pending state, the request will be retried" in
              report reporter Pending err "IssuancePending" message ;;
              log_line (LogError log err message) ;;
              ret (None, Some err)
          | ErrRetrieveCertificateTimeout _ =>
              let message :=
                "timed out waiting for venafi certificate, the request will be retried" in
              report reporter Failed err "Timeout" message ;;
              log_line (LogError log err message) ;;
              ret (None, None)
          | _ =>
              let message := "failed to obtain venafi certificate" in
              report reporter Pending err "Retrieve" message ;;
              log_line (LogError log err message) ;;
              ret (None, Some err)
          end
      | None =>
          log_line (LogInfo log "certificate issued") ;;
          ret (Some {| Certificate := certPem |}, None)
      end
  end.

(** *** What the collaborators do in one invocation *)

Definition built (v : Signer) (cr : ptr) (issuerObj : GenericIssuer)
    (s : Store) : error + Client :=
  builder v (Namespace (obj_request (objects s cr))) (lister v) issuerObj.

Definition csr_of (cr : ptr) (s : Store) : bytes :=
  spec_CSRPEM (Spec (obj_request (objects s cr))).

Definition duration_of (cr : ptr) (s : Store) : Duration :=
  DefaultCertDuration dflt (spec_Duration (Spec (obj_request (objects s cr)))).

(** The event that the failure of a collaborator calls for, if one fails. *)
Definition reported (v : Signer) (cr : ptr) (issuerObj : GenericIssuer)
    (s : Store) : option Event :=
  match built v cr issuerObj s with
  | inl err =>
      Some (if IsNotFound err
            then event_for cr Pending "MissingSecret"
                   "Required secret resource not found" err
            else event_for cr Pending "ErrorVenafiInit"
                   "Failed to initialise venafi client for signing" err)
  | inr c =>
      match snd (client_Sign (answers c) (csr_of cr s) (duration_of cr s)) with
      | None => None
      | Some err =>
          Some (if isErrCertificatePending err
                then event_for cr Pending "IssuancePending"
                       "venafi certificate still in a pending state, the request will be retried"
                       err
                else if isErrRetrieveCertificateTimeout err
                then event_for cr Failed "Timeout"
                       "timed out waiting for venafi certificate, the request will be retried"
                       err
                else event_for cr Pending "Retrieve"
                       "failed to obtain venafi certificate" err)
      end
  end.

(** The request as the CA client leaves it: untouched when no client was
    built, else with the content the client left in the CSR slice. *)
Definition left_by_client (v : Signer) (cr : ptr) (issuerObj : GenericIssuer)
    (s : Store) : Object :=
  match built v cr issuerObj s with
  | inl _ => objects s cr
  | inr c =>
      set_CSRPEM (leaves c (csr_of cr s) (duration_of cr s)) (objects s cr)
  end.

(** The request as the collaborators leave it: after the client, the
    reporter writes for the event it records, if it records one. *)
Definition request_after (v : Signer) (cr : ptr) (issuerObj : GenericIssuer)
    (s : Store) : Object :=
  match reported v cr issuerObj s with
  | None => left_by_client v cr issuerObj s
  | Some e =>
      reporter_writes (ev_outcome e) (ev_cause e) (ev_reason e) (ev_message e)
        (left_by_client v cr issuerObj s)
  end.

(** The store without the sharing: the world of the model above. *)
Definition forget (s : Store) : World :=
  {| w_heap := fun p => obj_request (objects s p);
     w_recorder := st_recorder s;
     w_log := st_log s;
     w_builds := st_builds s;
     w_signs := st_signs s |}.

End Sharing.

(** The signer whose clients only answer. *)
Definition plain (v : Signer) : Venafi :=
  {| secretsLister := lister v;
     clientBuilder := fun ns l iss =>
       match builder v ns l iss with
       | inl err => inl err
       | inr c => inr (answers c)
       end |}.

(** *** A client that wipes the buffer it was handed *)





End Shared.

(** ** The paths of [Sign], one equation each *)

Section Paths.

Variable dflt : Duration.
Variables (v : Venafi) (ctx : Context) (cr : ptr) (issuerObj : GenericIssuer).
Variable w : World.

(** Runs [Sign] as far as the answers of the collaborators allow. *)
Ltac run_Sign Hb :=
  unfold builder_answer, ca_answer in *;
  unfold Sign; cbn; rewrite Hb; cbn.

Lemma Sign_missing_secret (err : error) :
  builder_answer v cr issuerObj w = inl err ->
  IsNotFound err = true ->
  runState (Sign dflt v ctx cr issuerObj) w =
    ((None, None),
     write_log
       (LogError (sign_log_related ctx issuerObj) err
          "Required secret resource not found")
       (record_event
          (event_for cr Pending "MissingSecret"
             "Required secret resource not found" err)
          (after_build cr issuerObj w))).
Proof.
  intros Hb Hnf. run_Sign Hb. rewrite Hnf. reflexivity.
Qed.

Lemma Sign_init_failed (err : error) :
  builder_answer v cr issuerObj w = inl err ->
  IsNotFound err = false ->
  runState (Sign dflt v ctx cr issuerObj) w =
    ((None, Some err),
     write_log
       (LogError (sign_log_related ctx issuerObj) err
          "Failed to initialise venafi client for signing")
       (record_event
          (event_for cr Pending "ErrorVenafiInit"
             "Failed to initialise venafi client for signing" err)
          (after_build cr issuerObj w))).
Proof.
  intros Hb Hnf. run_Sign Hb. rewrite Hnf. reflexivity.
Qed.

Lemma Sign_issued (client : VenafiClient) (certPem : bytes) :
  builder_answer v cr issuerObj w = inr client ->
  ca_answer dflt client cr w = (certPem, None) ->
  runState (Sign dflt v ctx cr issuerObj) w =
    ((Some {| Certificate := certPem |}, None),
     write_log (LogInfo (sign_log ctx) "certificate issued")
       (after_sign dflt cr issuerObj w)).
Proof.
  intros Hb Hs. run_Sign Hb. rewrite Hs. reflexivity.
Qed.

Lemma Sign_pending (client : VenafiClient) (certPem : bytes) (err : error) :
  builder_answer v cr issuerObj w = inr client ->
  ca_answer dflt client cr w = (certPem, Some err) ->
  isErrCertificatePending err = true ->
  runState (Sign dflt v ctx cr issuerObj) w =
    ((None, Some err),
     write_log
       (LogError (sign_log ctx) err
          "venafi certificate still in a pending state, the request will be retried")
       (record_event
          (event_for cr Pending "IssuancePending"
             "venafi certificate still in a pending state, the request will be retried"
             err)
          (after_sign dflt cr issuerObj w))).
Proof.
  intros Hb Hs Hp. run_Sign Hb. rewrite Hs.
  destruct err; try discriminate Hp. reflexivity.
Qed.

Lemma Sign_timeout (client : VenafiClient) (certPem : bytes) (err : error) :
  builder_answer v cr issuerObj w = inr client ->
  ca_answer dflt client cr w = (certPem, Some err) ->
  isErrRetrieveCertificateTimeout err = true ->
  runState (Sign dflt v ctx cr issuerObj) w =
    ((None, None),
     write_log
       (LogError (sign_log ctx) err
          "timed out waiting for venafi certificate, the request will be retried")
       (record_event
          (event_for cr Failed "Timeout"
             "timed out waiting for venafi certificate, the request will be retried"
             err)
          (after_sign dflt cr issuerObj w))).
Proof.
  intros Hb Hs Ht. run_Sign Hb. rewrite Hs.
  destruct err; try discriminate Ht. reflexivity.
Qed.

Lemma Sign_retrieve (client : VenafiClient) (certPem : bytes) (err : error) :
  builder_answer v cr issuerObj w = inr client ->
  ca_answer dflt client cr w = (certPem, Some err) ->
  isErrCertificatePending err = false ->
  isErrRetrieveCertificateTimeout err = false ->
  runState (Sign dflt v ctx cr issuerObj) w =
    ((None, Some err),
     write_log (LogError (sign_log ctx) err "failed to obtain venafi certificate")
       (record_event
          (event_for cr Pending "Retrieve"
             "failed to obtain venafi certificate" err)
          (after_sign dflt cr issuerObj w))).
Proof.
  intros Hb Hs Hp Ht. run_Sign Hb. rewrite Hs.
  destruct err; try discriminate Hp; try discriminate Ht; reflexivity.
Qed.

(** Every invocation takes one of the six paths. *)
Lemma Sign_run :
  SignRun dflt v ctx cr issuerObj w (runState (Sign dflt v ctx cr issuerObj) w).
Proof.
  destruct (builder_answer v cr issuerObj w) as [err | client] eqn:Hb.
  - destruct (IsNotFound err) eqn:Hnf.
    + rewrite (Sign_missing_secret Hb Hnf). now apply RunMissingSecret.
    + rewrite (Sign_init_failed Hb Hnf). now apply RunInitFailed.
  - destruct (ca_answer dflt client cr w) as [certPem [err |]] eqn:Hs.
    + destruct (isErrCertificatePending err) eqn:Hp.
      * rewrite (Sign_pending Hb Hs Hp). now apply RunPending with client certPem.
      * destruct (isErrRetrieveCertificateTimeout err) eqn:Ht.
        -- rewrite (Sign_timeout Hb Hs Ht).
           now apply RunTimeout with client certPem.
        -- rewrite (Sign_retrieve Hb Hs Hp Ht).
           now apply RunRetrieve with client certPem.
    + rewrite (Sign_issued Hb Hs). now apply RunIssued with client.
Qed.

(** The result and the final world are the two halves of the run. *)
Lemma Sign_result_world :
  runState (Sign dflt v ctx cr issuerObj) w =
    (Sign_result dflt v ctx cr issuerObj w, Sign_world dflt v ctx cr issuerObj w).
Proof.
  unfold Sign_result, Sign_world, evalState, execState.
  now destruct (runState (Sign dflt v ctx cr issuerObj) w).
Qed.

End Paths.

(** ** Properties of [Sign] *)

Section Claims.

Variable dflt : Duration.
Variables (v : Venafi) (ctx : Context) (cr : ptr) (issuerObj : GenericIssuer).
Variable w : World.

(** Splits the run into result and final world and rewrites with the
    equation [E] of the path taken. *)
Ltac on_path E :=
  unfold Sign_result, Sign_world, evalState, execState;
  rewrite E; cbn.

(** Goes through the six paths of the invocation. *)
Ltac by_paths :=
  unfold Sign_result, Sign_world, evalState, execState;
  let k := fresh "k" in
  let Hk := fresh "Hk" in
  remember (runState (Sign dflt v ctx cr issuerObj) w) as k eqn:Hk;
  destruct (eq_ind_r (SignRun dflt v ctx cr issuerObj w)
              (Sign_run dflt v ctx cr issuerObj w) Hk);
  cbn.

(** C1, as amended.  An invocation of [Sign] records at most one audit event
    in the event sink before it returns: exactly one on every path that fails
    (the client cannot be built, or the CA client returns an error), and none
    on the path that issues the certificate.  It never records two. *)
Theorem Sign_records_one_event_unless_issued :
  exists es,
    w_recorder (Sign_world dflt v ctx cr issuerObj w) = w_recorder w ++ es /\
    length es = (if issues dflt v cr issuerObj w then 0 else 1).
Proof.
  unfold issues. by_paths;
    match goal with
    | Hb : builder_answer _ _ _ _ = _ |- _ => rewrite Hb
    end;
    try match goal with
    | Hs : ca_answer _ _ _ _ = _ |- _ => rewrite Hs; cbn
    end.
  6: (exists []; now rewrite app_nil_r).
  all: eexists [_]; split; reflexivity.
Qed.

(** C3.  The result pair of [Sign] never has both components set: a response
    comes with a nil error only, and an error with a nil response only. *)
Theorem Sign_never_response_and_error :
  fst (Sign_result dflt v ctx cr issuerObj w) = None \/
  snd (Sign_result dflt v ctx cr issuerObj w) = None.
Proof.
  by_paths; auto.
Qed.

(** C10.  An error that [Sign] returns is the very error value that the
    client builder or the CA client's [Sign] produced in this invocation;
    [Sign] wraps none and makes none of its own. *)
Theorem Sign_returns_the_error_it_got (e : error) :
  snd (Sign_result dflt v ctx cr issuerObj w) = Some e ->
  builder_answer v cr issuerObj w = inl e \/
  exists client certPem,
    builder_answer v cr issuerObj w = inr client /\
    ca_answer dflt client cr w = (certPem, Some e).
Proof.
  by_paths; intros He; try discriminate He; injection He as <-; eauto.
Qed.

(** C2, as amended.  When the builder hands back a client and the client's
    [Sign] returns a certificate with a nil error, [Sign] returns those very
    bytes in the response, with a nil error; it records no event in the event
    sink, and writes the one informational log line "certificate issued". *)
Theorem Sign_issues_and_only_logs (client : VenafiClient) (certPem : bytes) :
  builder_answer v cr issuerObj w = inr client ->
  ca_answer dflt client cr w = (certPem, None) ->
  Sign_result dflt v ctx cr issuerObj w =
    (Some {| Certificate := certPem |}, None) /\
  w_recorder (Sign_world dflt v ctx cr issuerObj w) = w_recorder w /\
  w_log (Sign_world dflt v ctx cr issuerObj w) =
    w_log w ++ [LogInfo (sign_log ctx) "certificate issued"].
Proof.
  intros Hb Hs. on_path (Sign_issued dflt v ctx cr issuerObj w Hb Hs). auto.
Qed.

(** C4.  When the CA client's [Sign] returns a retrieval timeout, [Sign]
    returns neither a response nor an error, and records exactly one event,
    a failure with reason code "Timeout". *)
Theorem Sign_absorbs_timeout (client : VenafiClient) (certPem : bytes)
    (err : error) :
  builder_answer v cr issuerObj w = inr client ->
  ca_answer dflt client cr w = (certPem, Some err) ->
  isErrRetrieveCertificateTimeout err = true ->
  Sign_result dflt v ctx cr issuerObj w = (None, None) /\
  w_recorder (Sign_world dflt v ctx cr issuerObj w) =
    w_recorder w ++
    [event_for cr Failed "Timeout"
       "timed out waiting for venafi certificate, the request will be retried"
       err].
Proof.
  intros Hb Hs Ht. on_path (Sign_timeout dflt v ctx cr issuerObj w Hb Hs Ht). auto.
Qed.

(** C5.  When the builder fails with a not-found error, [Sign] returns
    neither a response nor an error, records exactly one event, with reason
    code "MissingSecret", and does not call the CA client.  A second
    invocation in the world the first one left does the same again: the same
    result, the same one event, no call to the CA client. *)
Theorem Sign_waits_for_missing_secret (err : error) :
  builder_answer v cr issuerObj w = inl err ->
  IsNotFound err = true ->
  let e := event_for cr Pending "MissingSecret"
             "Required secret resource not found" err in
  let w1 := Sign_world dflt v ctx cr issuerObj w in
  let w2 := Sign_world dflt v ctx cr issuerObj w1 in
  (Sign_result dflt v ctx cr issuerObj w = (None, None) /\
   w_recorder w1 = w_recorder w ++ [e] /\
   w_signs w1 = w_signs w) /\
  (Sign_result dflt v ctx cr issuerObj w1 = (None, None) /\
   w_recorder w2 = w_recorder w1 ++ [e] /\
   w_signs w2 = w_signs w1).
Proof.
  intros Hb Hnf e w1 w2.
  assert (Hb1 : builder_answer v cr issuerObj w1 = inl err).
  { subst w1. unfold Sign_world, execState.
    rewrite (Sign_missing_secret dflt v ctx cr issuerObj w Hb Hnf). exact Hb. }
  split.
  - subst e w1. on_path (Sign_missing_secret dflt v ctx cr issuerObj w Hb Hnf). auto.
  - subst e w2. generalize dependent w1. intros w1 Hb1.
    unfold Sign_result, Sign_world, evalState, execState.
    rewrite (Sign_missing_secret dflt v ctx cr issuerObj w1 Hb1 Hnf). cbn. auto.
Qed.

(** C6.  When the CA client's [Sign] returns a certificate-pending error,
    the event [Sign] records is a [Pending] one with reason code
    "IssuancePending", and [Sign] returns that error with no response: the
    caller is asked to retry. *)
Theorem Sign_retries_pending_issuance (client : VenafiClient)
    (certPem : bytes) (err : error) :
  builder_answer v cr issuerObj w = inr client ->
  ca_answer dflt client cr w = (certPem, Some err) ->
  isErrCertificatePending err = true ->
  Sign_result dflt v ctx cr issuerObj w = (None, Some err) /\
  asks_retry (Sign_result dflt v ctx cr issuerObj w) = true /\
  w_recorder (Sign_world dflt v ctx cr issuerObj w) =
    w_recorder w ++
    [event_for cr Pending "IssuancePending"
       "venafi certificate still in a pending state, the request will be retried"
       err].
Proof.
  intros Hb Hs Hp. on_path (Sign_pending dflt v ctx cr issuerObj w Hb Hs Hp). auto.
Qed.

(** C7.  When the CA client's [Sign] returns an error that is neither a
    certificate-pending nor a retrieval-timeout error, [Sign] returns that
    error with no response, and records exactly one event, with reason code
    "Retrieve". *)
Theorem Sign_surfaces_other_ca_errors (client : VenafiClient)
    (certPem : bytes) (err : error) :
  builder_answer v cr issuerObj w = inr client ->
  ca_answer dflt client cr w = (certPem, Some err) ->
  isErrCertificatePending err = false ->
  isErrRetrieveCertificateTimeout err = false ->
  Sign_result dflt v ctx cr issuerObj w = (None, Some err) /\
  w_recorder (Sign_world dflt v ctx cr issuerObj w) =
    w_recorder w ++
    [event_for cr Pending "Retrieve" "failed to obtain venafi certificate" err].
Proof.
  intros Hb Hs Hp Ht. on_path (Sign_retrieve dflt v ctx cr issuerObj w Hb Hs Hp Ht). auto.
Qed.

(** C8.  When the builder fails with an error that is not a not-found error,
    [Sign] returns that error with no response, records exactly one event,
    with reason code "ErrorVenafiInit", and does not call the CA client. *)
Theorem Sign_surfaces_init_errors (err : error) :
  builder_answer v cr issuerObj w = inl err ->
  IsNotFound err = false ->
  Sign_result dflt v ctx cr issuerObj w = (None, Some err) /\
  w_recorder (Sign_world dflt v ctx cr issuerObj w) =
    w_recorder w ++
    [event_for cr Pending "ErrorVenafiInit"
       "Failed to initialise venafi client for signing" err] /\
  w_signs (Sign_world dflt v ctx cr issuerObj w) = w_signs w.
Proof.
  intros Hb Hnf. on_path (Sign_init_failed dflt v ctx cr issuerObj w Hb Hnf). auto.
Qed.

End Claims.

(** ** The properties at concrete invocations *)

Section Instances.

Import Examples.

(** C1 as it was stated fails where the certificate is issued: the builder
    finds the credentials, the CA client signs, and the event sink, empty
    before the call, is still empty after it. *)
Lemma issued_certificate_leaves_sink_empty :
  issues ninety_days (signer_with issuing_client) 0 issuer0 fresh_world = true /\
  w_recorder
    (Sign_world ninety_days (signer_with issuing_client) ctx0 0 issuer0
       fresh_world) = [] /\
  ~ exists e,
      w_recorder
        (Sign_world ninety_days (signer_with issuing_client) ctx0 0 issuer0
           fresh_world) = w_recorder fresh_world ++ [e].
Proof.
  split; [reflexivity |]. split; [reflexivity |].
  intros [e He]. vm_compute in He. discriminate He.
Qed.

(** C2 as it was stated fails on its second half: for a cluster issuer and a
    request that asks for one hour, the certificate of the CA comes back
    with a nil error, and the sink holds the one event it held before. *)
Lemma issued_certificate_adds_no_event :
  builder_answer (signer_with issuing_client) 1 cluster_issuer0 used_world =
    inr issuing_client /\
  ca_answer ninety_days issuing_client 1 used_world = (cert_pem, None) /\
  Sign_result ninety_days (signer_with issuing_client) ctx0 1 cluster_issuer0
    used_world = (Some {| Certificate := cert_pem |}, None) /\
  w_recorder
    (Sign_world ninety_days (signer_with issuing_client) ctx0 1
       cluster_issuer0 used_world) = w_recorder used_world /\
  ~ exists e,
      w_recorder
        (Sign_world ninety_days (signer_with issuing_client) ctx0 1
           cluster_issuer0 used_world) = w_recorder used_world ++ [e].
Proof.
  split; [reflexivity |]. split; [reflexivity |].
  split; [reflexivity |]. split; [reflexivity |].
  intros [e He]. vm_compute in He. discriminate He.
Qed.

Lemma Sign_issues_and_only_logs_witness :
  builder_answer (signer_with issuing_client) 0 issuer0 fresh_world =
    inr issuing_client /\
  ca_answer ninety_days issuing_client 0 fresh_world = (cert_pem, None) /\
  (Sign_result ninety_days (signer_with issuing_client) ctx0 0 issuer0
     fresh_world = (Some {| Certificate := cert_pem |}, None) /\
   w_recorder
     (Sign_world ninety_days (signer_with issuing_client) ctx0 0 issuer0
        fresh_world) = w_recorder fresh_world /\
   w_log
     (Sign_world ninety_days (signer_with issuing_client) ctx0 0 issuer0
        fresh_world) =
     w_log fresh_world ++ [LogInfo (sign_log ctx0) "certificate issued"]).
Proof.
  split; [reflexivity |]. split; [reflexivity |].
  apply (Sign_issues_and_only_logs ninety_days (signer_with issuing_client)
           ctx0 0 issuer0 fresh_world (client := issuing_client));
    reflexivity.
Defined.

Lemma Sign_absorbs_timeout_witness :
  builder_answer (signer_with timeout_client) 0 issuer0 fresh_world =
    inr timeout_client /\
  ca_answer ninety_days timeout_client 0 fresh_world =
    ([], Some (ErrRetrieveCertificateTimeout "req-17")) /\
  isErrRetrieveCertificateTimeout (ErrRetrieveCertificateTimeout "req-17") =
    true /\
  (Sign_result ninety_days (signer_with timeout_client) ctx0 0 issuer0
     fresh_world = (None, None) /\
   w_recorder
     (Sign_world ninety_days (signer_with timeout_client) ctx0 0 issuer0
        fresh_world) =
     w_recorder fresh_world ++
     [event_for 0 Failed "Timeout"
        "timed out waiting for venafi certificate, the request will be retried"
        (ErrRetrieveCertificateTimeout "req-17")]).
Proof.
  split; [reflexivity |]. split; [reflexivity |]. split; [reflexivity |].
  apply (Sign_absorbs_timeout ninety_days (signer_with timeout_client) ctx0 0
           issuer0 fresh_world (client := timeout_client) (certPem := []));
    reflexivity.
Defined.

Lemma Sign_waits_for_missing_secret_witness :
  builder_answer signer_without_secret 0 issuer0 fresh_world =
    inl (StatusError StatusReasonNotFound "secret not found") /\
  IsNotFound (StatusError StatusReasonNotFound "secret not found") = true /\
  (let e := event_for 0 Pending "MissingSecret"
              "Required secret resource not found"
              (StatusError StatusReasonNotFound "secret not found") in
   let w1 := Sign_world ninety_days signer_without_secret ctx0 0 issuer0
               fresh_world in
   let w2 := Sign_world ninety_days signer_without_secret ctx0 0 issuer0 w1 in
   (Sign_result ninety_days signer_without_secret ctx0 0 issuer0 fresh_world =
      (None, None) /\
    w_recorder w1 = w_recorder fresh_world ++ [e] /\
    w_signs w1 = w_signs fresh_world) /\
   (Sign_result ninety_days signer_without_secret ctx0 0 issuer0 w1 =
      (None, None) /\
    w_recorder w2 = w_recorder w1 ++ [e] /\
    w_signs w2 = w_signs w1)).
Proof.
  split; [reflexivity |]. split; [reflexivity |].
  apply (Sign_waits_for_missing_secret ninety_days signer_without_secret ctx0
           0 issuer0 fresh_world); reflexivity.
Defined.

Lemma Sign_retries_pending_issuance_witness :
  builder_answer (signer_with pending_client) 1 cluster_issuer0 fresh_world =
    inr pending_client /\
  ca_answer ninety_days pending_client 1 fresh_world =
    ([], Some (ErrCertificatePending "req-17" "Pending approval")) /\
  isErrCertificatePending (ErrCertificatePending "req-17" "Pending approval") =
    true /\
  (Sign_result ninety_days (signer_with pending_client) ctx0 1 cluster_issuer0
     fresh_world =
     (None, Some (ErrCertificatePending "req-17" "Pending approval")) /\
   asks_retry
     (Sign_result ninety_days (signer_with pending_client) ctx0 1
        cluster_issuer0 fresh_world) = true /\
   w_recorder
     (Sign_world ninety_days (signer_with pending_client) ctx0 1
        cluster_issuer0 fresh_world) =
     w_recorder fresh_world ++
     [event_for 1 Pending "IssuancePending"
        "venafi certificate still in a pending state, the request will be retried"
        (ErrCertificatePending "req-17" "Pending approval")]).
Proof.
  split; [reflexivity |]. split; [reflexivity |]. split; [reflexivity |].
  apply (Sign_retries_pending_issuance ninety_days (signer_with pending_client)
           ctx0 1 cluster_issuer0 fresh_world (client := pending_client)
           (certPem := []));
    reflexivity.
Defined.

Lemma Sign_surfaces_other_ca_errors_witness :
  builder_answer (signer_with unreachable_client) 0 issuer0 fresh_world =
    inr unreachable_client /\
  ca_answer ninety_days unreachable_client 0 fresh_world =
    ([], Some (errorString "connection refused")) /\
  isErrCertificatePending (errorString "connection refused") = false /\
  isErrRetrieveCertificateTimeout (errorString "connection refused") = false /\
  (Sign_result ninety_days (signer_with unreachable_client) ctx0 0 issuer0
     fresh_world = (None, Some (errorString "connection refused")) /\
   w_recorder
     (Sign_world ninety_days (signer_with unreachable_client) ctx0 0 issuer0
        fresh_world) =
     w_recorder fresh_world ++
     [event_for 0 Pending "Retrieve" "failed to obtain venafi certificate"
        (errorString "connection refused")]).
Proof.
  split; [reflexivity |]. split; [reflexivity |].
  split; [reflexivity |]. split; [reflexivity |].
  apply (Sign_surfaces_other_ca_errors ninety_days
           (signer_with unreachable_client) ctx0 0 issuer0 fresh_world
           (client := unreachable_client) (certPem := []));
    reflexivity.
Defined.

Lemma Sign_surfaces_init_errors_witness :
  builder_answer signer_with_empty_secret 0 issuer0 fresh_world =
    inl (errorString "credentials are empty") /\
  IsNotFound (errorString "credentials are empty") = false /\
  (Sign_result ninety_days signer_with_empty_secret ctx0 0 issuer0 fresh_world =
     (None, Some (errorString "credentials are empty")) /\
   w_recorder
     (Sign_world ninety_days signer_with_empty_secret ctx0 0 issuer0
        fresh_world) =
     w_recorder fresh_world ++
     [event_for 0 Pending "ErrorVenafiInit"
        "Failed to initialise venafi client for signing"
        (errorString "credentials are empty")] /\
   w_signs
     (Sign_world ninety_days signer_with_empty_secret ctx0 0 issuer0
        fresh_world) = w_signs fresh_world).
Proof.
  split; [reflexivity |]. split; [reflexivity |].
  apply (Sign_surfaces_init_errors ninety_days signer_with_empty_secret ctx0 0
           issuer0 fresh_world); reflexivity.
Defined.

Lemma Sign_returns_the_error_it_got_witness :
  snd (Sign_result ninety_days (signer_with unreachable_client) ctx0 0 issuer0
         used_world) = Some (errorString "connection refused") /\
  (builder_answer (signer_with unreachable_client) 0 issuer0 used_world =
     inl (errorString "connection refused") \/
   exists client certPem,
     builder_answer (signer_with unreachable_client) 0 issuer0 used_world =
       inr client /\
     ca_answer ninety_days client 0 used_world =
       (certPem, Some (errorString "connection refused"))).
Proof.
  split; [reflexivity |].
  apply (Sign_returns_the_error_it_got ninety_days
           (signer_with unreachable_client) ctx0 0 issuer0 used_world);
    reflexivity.
Defined.

End Instances.

(** ** More of what [Sign] does: calls, log lines, reason codes *)

Section Coverage.

Variable dflt : Duration.
Variables (v : Venafi) (cr : ptr) (issuerObj : GenericIssuer).
Variable w : World.

(** Takes the invocation apart by the answers of its collaborators. *)
Ltac by_answers :=
  let err := fresh "err" in
  let client := fresh "client" in
  let certPem := fresh "certPem" in
  destruct (builder_answer v cr issuerObj w) as [err | client] eqn:Hb;
  [ destruct (IsNotFound err) eqn:Hnf
  | destruct (ca_answer dflt client cr w) as [certPem [err |]] eqn:Hs;
    [ destruct (isErrCertificatePending err) eqn:Hp;
      [ | destruct (isErrRetrieveCertificateTimeout err) eqn:Ht ]
    | ] ].

(** Rewrites the run under [ctx] with the equation of the path at hand. *)
Ltac rewrite_under ctx :=
  unfold Sign_result, Sign_world, evalState, execState;
  match goal with
  | Hb : _ = inl ?e, Hnf : IsNotFound ?e = true |- _ =>
      rewrite (Sign_missing_secret dflt v ctx cr issuerObj w Hb Hnf)
  | Hb : _ = inl ?e, Hnf : IsNotFound ?e = false |- _ =>
      rewrite (Sign_init_failed dflt v ctx cr issuerObj w Hb Hnf)
  | Hb : _ = inr ?c, Hs : _ = (_, Some ?e),
    Hp : isErrCertificatePending ?e = true |- _ =>
      rewrite (Sign_pending dflt v ctx cr issuerObj w Hb Hs Hp)
  | Hb : _ = inr ?c, Hs : _ = (_, Some ?e),
    Ht : isErrRetrieveCertificateTimeout ?e = true |- _ =>
      rewrite (Sign_timeout dflt v ctx cr issuerObj w Hb Hs Ht)
  | Hb : _ = inr ?c, Hs : _ = (_, Some ?e),
    Hp : isErrCertificatePending ?e = false,
    Ht : isErrRetrieveCertificateTimeout ?e = false |- _ =>
      rewrite (Sign_retrieve dflt v ctx cr issuerObj w Hb Hs Hp Ht)
  | Hb : _ = inr ?c, Hs : _ = (_, None) |- _ =>
      rewrite (Sign_issued dflt v ctx cr issuerObj w Hb Hs)
  end.

Ltac run_under ctx := rewrite_under ctx; cbn.

(** A list is not itself with one more element. *)
Lemma not_own_extension {A : Type} (l : list A) (x : A) : l <> l ++ [x].
Proof.
  intros H. apply (f_equal (@length A)) in H.
  rewrite length_app in H. cbn in H.
  rewrite Nat.add_comm in H. cbn in H.
  now apply n_Sn in H.
Qed.

(** X1.  Every invocation writes exactly one log line.  Where a collaborator
    failed it is an error line with the error the collaborator returned and
    with the message of the one event recorded, which has that error as its
    cause; where the certificate is issued it is the line
    "certificate issued". *)
Theorem Sign_logs_what_it_reports (ctx : Context) :
  match builder_answer v cr issuerObj w with
  | inl err =>
      exists reason msg lg,
        w_recorder (Sign_world dflt v ctx cr issuerObj w) =
          w_recorder w ++ [event_for cr Pending reason msg err] /\
        w_log (Sign_world dflt v ctx cr issuerObj w) =
          w_log w ++ [LogError lg err msg]
  | inr client =>
      match snd (ca_answer dflt client cr w) with
      | Some err =>
          exists o reason msg lg,
            w_recorder (Sign_world dflt v ctx cr issuerObj w) =
              w_recorder w ++ [event_for cr o reason msg err] /\
            w_log (Sign_world dflt v ctx cr issuerObj w) =
              w_log w ++ [LogError lg err msg]
      | None =>
          exists lg,
            w_log (Sign_world dflt v ctx cr issuerObj w) =
              w_log w ++ [LogInfo lg "certificate issued"]
      end
  end.
Proof.
  by_answers; run_under ctx; eauto 8.
Qed.

(** X2.  Every invocation calls the client builder exactly once, with the
    namespace of the request and the issuer it was given, whatever happens
    afterwards. *)
Theorem Sign_builds_once (ctx : Context) :
  w_builds (Sign_world dflt v ctx cr issuerObj w) =
    w_builds w ++ [(Namespace (w_heap w cr), issuerObj)].
Proof.
  by_answers; run_under ctx; reflexivity.
Qed.

(** X3.  An invocation calls the CA client at most once: not at all when
    the builder fails, and exactly once when it hands back a client, with
    the CSR bytes of the request and the duration of the request passed
    through [DefaultCertDuration]. *)
Theorem Sign_calls_ca_as_built (ctx : Context) :
  w_signs (Sign_world dflt v ctx cr issuerObj w) =
    w_signs w ++ ca_calls dflt v cr issuerObj w.
Proof.
  unfold ca_calls.
  by_answers; run_under ctx; try reflexivity; now rewrite app_nil_r.
Qed.

(** X4.  The error [Sign] returns is the error of the collaborator that
    failed, except for two that it keeps to itself: a not-found error of the
    builder and a retrieval timeout of the CA client.  Without a failure
    there is no error. *)
Theorem Sign_error_is_surfaced (ctx : Context) :
  snd (Sign_result dflt v ctx cr issuerObj w) = surfaced dflt v cr issuerObj w.
Proof.
  unfold surfaced.
  by_answers; run_under ctx;
    rewrite ?Hnf, ?Ht; try reflexivity.
  destruct err; try discriminate Hp; reflexivity.
Qed.

(** X5.  [Sign] makes no certificate of its own: a response it returns
    holds the bytes that the CA client returned with a nil error, from the
    client that the builder handed back. *)
Theorem Sign_response_is_from_ca (ctx : Context) (resp : IssueResponse) :
  fst (Sign_result dflt v ctx cr issuerObj w) = Some resp ->
  exists client,
    builder_answer v cr issuerObj w = inr client /\
    ca_answer dflt client cr w = (Certificate resp, None).
Proof.
  by_answers; run_under ctx; intros H; try discriminate H.
  injection H as <-. eauto.
Qed.

(** X6.  The events of an invocation are about the request it was called
    for, and their outcome and reason code are one of five pairs: pending
    with "MissingSecret", "ErrorVenafiInit", "IssuancePending" or
    "Retrieve", or failed with "Timeout". *)
Theorem Sign_reason_codes_are_closed (ctx : Context) :
  exists es,
    w_recorder (Sign_world dflt v ctx cr issuerObj w) = w_recorder w ++ es /\
    Forall (fun e => In (ev_outcome e, ev_reason e) reason_codes /\
                     ev_regarding e = cr) es.
Proof.
  by_answers; run_under ctx.
  6: (exists []; split; [now rewrite app_nil_r | constructor]).
  all: eexists [_]; split; [reflexivity |];
    apply Forall_cons; [split; [cbn; auto 8 | reflexivity] | apply Forall_nil].
Qed.

(** X7.  The result of an invocation can be read off the event it recorded:
    no response; and no error when the reason code is "MissingSecret" or
    "Timeout", else the error that the event names as its cause. *)
Theorem Sign_result_follows_event (ctx : Context) (e : Event) :
  w_recorder (Sign_world dflt v ctx cr issuerObj w) = w_recorder w ++ [e] ->
  Sign_result dflt v ctx cr issuerObj w =
    (None, if absorbed_reason (ev_reason e) then None else Some (ev_cause e)).
Proof.
  by_answers; run_under ctx; intros H;
    try (apply app_inv_head in H; injection H as <-; reflexivity).
  now apply not_own_extension in H.
Qed.

(** X8.  The reason code of a recorded event tells which collaborator
    failed, and the cause of the event is the error it returned: the builder
    for "MissingSecret" and "ErrorVenafiInit", the CA client's [Sign] for the
    other codes. *)
Theorem Sign_event_names_its_source (ctx : Context) (e : Event) :
  w_recorder (Sign_world dflt v ctx cr issuerObj w) = w_recorder w ++ [e] ->
  if builder_reason (ev_reason e)
  then builder_answer v cr issuerObj w = inl (ev_cause e)
  else exists client certPem,
         builder_answer v cr issuerObj w = inr client /\
         ca_answer dflt client cr w = (certPem, Some (ev_cause e)).
Proof.
  by_answers; run_under ctx; intros H;
    try (apply app_inv_head in H; injection H as <-; cbn; eauto).
  now apply not_own_extension in H.
Qed.

(** X9.  The context decides nothing but the logger: under two contexts an
    invocation returns the same pair, records the same events, makes the same
    calls to builder and CA client and leaves the same requests. *)
Theorem Sign_context_only_picks_logger (ctxa ctxb : Context) :
  Sign_result dflt v ctxa cr issuerObj w =
    Sign_result dflt v ctxb cr issuerObj w /\
  w_recorder (Sign_world dflt v ctxa cr issuerObj w) =
    w_recorder (Sign_world dflt v ctxb cr issuerObj w) /\
  w_builds (Sign_world dflt v ctxa cr issuerObj w) =
    w_builds (Sign_world dflt v ctxb cr issuerObj w) /\
  w_signs (Sign_world dflt v ctxa cr issuerObj w) =
    w_signs (Sign_world dflt v ctxb cr issuerObj w).
Proof.
  by_answers; rewrite_under ctxa; rewrite_under ctxb; cbn; auto.
Qed.

(** X10.  The type switch is for the errors of the CA client only.  A
    pending or timeout error that already the builder returns is an
    initialisation error like any other: the event has reason code
    "ErrorVenafiInit", the error is returned, a timeout too, and the CA
    client is not called. *)
Theorem Sign_builder_timeout_is_init_error (ctx : Context) (err : error) :
  builder_answer v cr issuerObj w = inl err ->
  isVcertError err = true ->
  Sign_result dflt v ctx cr issuerObj w = (None, Some err) /\
  w_recorder (Sign_world dflt v ctx cr issuerObj w) =
    w_recorder w ++
    [event_for cr Pending "ErrorVenafiInit"
       "Failed to initialise venafi client for signing" err] /\
  w_signs (Sign_world dflt v ctx cr issuerObj w) = w_signs w.
Proof.
  intros Hb Hv.
  assert (Hnf : IsNotFound err = false)
    by (destruct err; try discriminate Hv; reflexivity).
  run_under ctx. auto.
Qed.

(** X11.  The not-found test is for the errors of the builder only.  A
    not-found error that the CA client's [Sign] returns is not taken for a
    missing secret: the event has reason code "Retrieve", and the error is
    returned. *)
Theorem Sign_ca_not_found_is_retrieve (ctx : Context) (client : VenafiClient)
    (certPem : bytes) (err : error) :
  builder_answer v cr issuerObj w = inr client ->
  ca_answer dflt client cr w = (certPem, Some err) ->
  IsNotFound err = true ->
  Sign_result dflt v ctx cr issuerObj w = (None, Some err) /\
  w_recorder (Sign_world dflt v ctx cr issuerObj w) =
    w_recorder w ++
    [event_for cr Pending "Retrieve" "failed to obtain venafi certificate" err].
Proof.
  intros Hb Hs Hnf.
  assert (Hp : isErrCertificatePending err = false)
    by (destruct err; try discriminate Hnf; reflexivity).
  assert (Ht : isErrRetrieveCertificateTimeout err = false)
    by (destruct err; try discriminate Hnf; reflexivity).
  run_under ctx. auto.
Qed.

End Coverage.

(** ** These properties at concrete invocations *)

Section CoverageInstances.

Import Examples.
Import EdgeExamples.

Lemma Sign_response_is_from_ca_witness :
  fst (Sign_result ninety_days (signer_with issuing_client) ctx1 1
         cluster_issuer0 used_world) = Some {| Certificate := cert_pem |} /\
  exists client,
    builder_answer (signer_with issuing_client) 1 cluster_issuer0 used_world =
      inr client /\
    ca_answer ninety_days client 1 used_world =
      (Certificate {| Certificate := cert_pem |}, None).
Proof.
  split; [reflexivity |].
  apply (Sign_response_is_from_ca ninety_days (signer_with issuing_client) 1
           cluster_issuer0 used_world ctx1);
    reflexivity.
Defined.

Lemma Sign_result_follows_event_witness :
  w_recorder
    (Sign_world ninety_days (signer_with half_client) ctx0 0 issuer0
       fresh_world) =
    w_recorder fresh_world ++
    [event_for 0 Pending "Retrieve" "failed to obtain venafi certificate"
       (errorString "short read")] /\
  Sign_result ninety_days (signer_with half_client) ctx0 0 issuer0 fresh_world =
    (None,
     if absorbed_reason
          (ev_reason
             (event_for 0 Pending "Retrieve"
                "failed to obtain venafi certificate"
                (errorString "short read")))
     then None
     else Some
            (ev_cause
               (event_for 0 Pending "Retrieve"
                  "failed to obtain venafi certificate"
                  (errorString "short read")))).
Proof.
  split; [reflexivity |].
  apply (Sign_result_follows_event ninety_days (signer_with half_client) 0
           issuer0 fresh_world ctx0);
    reflexivity.
Defined.

Lemma Sign_event_names_its_source_witness :
  w_recorder
    (Sign_world ninety_days signer_without_secret ctx1 1 issuer0 fresh_world) =
    w_recorder fresh_world ++
    [event_for 1 Pending "MissingSecret" "Required secret resource not found"
       (StatusError StatusReasonNotFound "secret not found")] /\
  (if builder_reason
        (ev_reason
           (event_for 1 Pending "MissingSecret"
              "Required secret resource not found"
              (StatusError StatusReasonNotFound "secret not found")))
   then builder_answer signer_without_secret 1 issuer0 fresh_world =
          inl (ev_cause
                 (event_for 1 Pending "MissingSecret"
                    "Required secret resource not found"
                    (StatusError StatusReasonNotFound "secret not found")))
   else exists client certPem,
          builder_answer signer_without_secret 1 issuer0 fresh_world =
            inr client /\
          ca_answer ninety_days client 1 fresh_world =
            (certPem,
             Some
               (ev_cause
                  (event_for 1 Pending "MissingSecret"
                     "Required secret resource not found"
                     (StatusError StatusReasonNotFound "secret not found"))))).
Proof.
  split; [reflexivity |].
  apply (Sign_event_names_its_source ninety_days signer_without_secret 1
           issuer0 fresh_world ctx1);
    reflexivity.
Defined.

Lemma Sign_builder_timeout_is_init_error_witness :
  builder_answer signer_offline 0 issuer0 fresh_world =
    inl (ErrRetrieveCertificateTimeout "ping") /\
  isVcertError (ErrRetrieveCertificateTimeout "ping") = true /\
  (Sign_result ninety_days signer_offline ctx0 0 issuer0 fresh_world =
     (None, Some (ErrRetrieveCertificateTimeout "ping")) /\
   w_recorder
     (Sign_world ninety_days signer_offline ctx0 0 issuer0 fresh_world) =
     w_recorder fresh_world ++
     [event_for 0 Pending "ErrorVenafiInit"
        "Failed to initialise venafi client for signing"
        (ErrRetrieveCertificateTimeout "ping")] /\
   w_signs (Sign_world ninety_days signer_offline ctx0 0 issuer0 fresh_world) =
     w_signs fresh_world).
Proof.
  split; [reflexivity |]. split; [reflexivity |].
  apply (Sign_builder_timeout_is_init_error ninety_days signer_offline 0
           issuer0 fresh_world ctx0);
    reflexivity.
Defined.

Lemma Sign_ca_not_found_is_retrieve_witness :
  builder_answer (signer_with gone_client) 0 issuer0 fresh_world =
    inr gone_client /\
  ca_answer ninety_days gone_client 0 fresh_world =
    ([], Some (StatusError StatusReasonNotFound "zone not found")) /\
  IsNotFound (StatusError StatusReasonNotFound "zone not found") = true /\
  (Sign_result ninety_days (signer_with gone_client) ctx0 0 issuer0
     fresh_world =
     (None, Some (StatusError StatusReasonNotFound "zone not found")) /\
   w_recorder
     (Sign_world ninety_days (signer_with gone_client) ctx0 0 issuer0
        fresh_world) =
     w_recorder fresh_world ++
     [event_for 0 Pending "Retrieve" "failed to obtain venafi certificate"
        (StatusError StatusReasonNotFound "zone not found")]).
Proof.
  split; [reflexivity |]. split; [reflexivity |]. split; [reflexivity |].
  apply (Sign_ca_not_found_is_retrieve ninety_days (signer_with gone_client) 0
           issuer0 fresh_world ctx0 (client := gone_client) (certPem := []));
    reflexivity.
Defined.

End CoverageInstances.

(** ** The shared request: which writes reach it *)

Section SharedRequest.

Variable Rest : Type.
Variable reporter_writes :
  Outcome -> error -> string -> string -> Shared.Object Rest -> Shared.Object Rest.
Variable dflt : Duration.
Variables (v : Shared.Signer) (ctx : Context) (cr : ptr)
  (issuerObj : GenericIssuer).
Variable s : Shared.Store Rest.

(** Runs the sharing [Sign] along the answers of the collaborators. *)
Ltac run_shared :=
  unfold Shared.request_after, Shared.left_by_client, Shared.reported,
    Shared.built, Shared.csr_of, Shared.duration_of;
  unfold Shared.Sign, evalState, execState; cbn;
  destruct (Shared.builder v
              (Namespace (Shared.obj_request (Shared.objects s cr)))
              (Shared.lister v) issuerObj) as [err | client]; cbn;
  [ destruct (IsNotFound err); cbn
  | destruct (client_Sign (Shared.answers client)
                (spec_CSRPEM (Spec (Shared.obj_request (Shared.objects s cr))))
                (DefaultCertDuration dflt
                   (spec_Duration
                      (Spec (Shared.obj_request (Shared.objects s cr))))))
      as [certPem [[] |]]; cbn ].

(** With or without the sharing, an invocation returns the same pair,
    records the same events, writes the same log lines and makes the same
    calls: the writes of the collaborators come after [Sign] has read the
    request. *)
Lemma Shared_Sign_agrees :
  evalState (Shared.Sign reporter_writes dflt v ctx cr issuerObj) s =
    Sign_result dflt (Shared.plain v) ctx cr issuerObj (Shared.forget s) /\
  Shared.st_recorder
    (execState (Shared.Sign reporter_writes dflt v ctx cr issuerObj) s) =
    w_recorder
      (Sign_world dflt (Shared.plain v) ctx cr issuerObj (Shared.forget s)) /\
  Shared.st_log
    (execState (Shared.Sign reporter_writes dflt v ctx cr issuerObj) s) =
    w_log
      (Sign_world dflt (Shared.plain v) ctx cr issuerObj (Shared.forget s)) /\
  Shared.st_builds
    (execState (Shared.Sign reporter_writes dflt v ctx cr issuerObj) s) =
    w_builds
      (Sign_world dflt (Shared.plain v) ctx cr issuerObj (Shared.forget s)) /\
  Shared.st_signs
    (execState (Shared.Sign reporter_writes dflt v ctx cr issuerObj) s) =
    w_signs
      (Sign_world dflt (Shared.plain v) ctx cr issuerObj (Shared.forget s)).
Proof.
  unfold Sign_result, Sign_world, Sign. run_shared; auto.
Qed.


End SharedRequest.

